(** * A shallow embedding of godojo's bootstrap and source acquisition
    (cmd/bootstrap.go): distro dispatch, the Python version check,
    release download and extraction, and the git clone/checkout path. *)

From Stdlib Require Import String Ascii List Bool Arith Lia.
Import ListNotations.
Open Scope string_scope.
Open Scope list_scope.

(** ** Go string helpers *)

Module GoStr.

(** [strings.Split(s, sep)] for a one-character separator: the fields
    between occurrences of [sep]; [Split("", sep)] is [[""]]. *)
Fixpoint split (sep : ascii) (s : string) : list string :=
  match s with
  | EmptyString => [EmptyString]
  | String c rest =>
      let fields := split sep rest in
      if Ascii.eqb c sep then EmptyString :: fields
      else match fields with
           | f :: fs => String c f :: fs
           | [] => [String c EmptyString]
           end
  end.

(** [strings.HasPrefix(s, prefix)]. *)
Definition HasPrefix (s pre : string) : bool := String.prefix pre s.

(** [unicode.ToLower] on one byte of ASCII text. *)
Definition lower_ascii (c : ascii) : ascii :=
  let n := nat_of_ascii c in
  if (65 <=? n)%nat && (n <=? 90)%nat then ascii_of_nat (n + 32)%nat else c.

(** [strings.ToLower] on ASCII text. *)
Fixpoint ToLower (s : string) : string :=
  match s with
  | EmptyString => EmptyString
  | String c rest => String (lower_ascii c) (ToLower rest)
  end.

(** [strings.Join(elems, sep)]. *)
Fixpoint Join (elems : list string) (sep : string) : string :=
  match elems with
  | [] => EmptyString
  | [e] => e
  | e :: es => e ++ sep ++ Join es sep
  end.

End GoStr.

(** ** [path/filepath] on Unix *)

Module FilePath.

(** The element loop of [filepath.Clean]: drops empty and [.] elements,
    and lets [..] remove the previous real element; at the root a [..] is
    dropped, in a relative path it is kept. [acc] holds the output
    elements in reverse. *)
Fixpoint clean_elems (rooted : bool) (acc : list string) (es : list string)
  : list string :=
  match es with
  | [] => rev acc
  | e :: es' =>
      if String.eqb e "" || String.eqb e "." then clean_elems rooted acc es'
      else if String.eqb e ".." then
        match acc with
        | x :: acc' =>
            if String.eqb x ".." then clean_elems rooted (".." :: acc) es'
            else clean_elems rooted acc' es'
        | [] =>
            if rooted then clean_elems rooted [] es'
            else clean_elems rooted [".."] es'
        end
      else clean_elems rooted (e :: acc) es'
  end.

Definition is_rooted (p : string) : bool :=
  match p with
  | String c _ => Ascii.eqb c "/"%char
  | EmptyString => false
  end.

(** [filepath.Clean]. *)
Definition Clean (p : string) : string :=
  if String.eqb p "" then "."
  else
    let rooted := is_rooted p in
    let out := GoStr.Join (clean_elems rooted [] (GoStr.split "/"%char p)) "/" in
    if rooted then "/" ++ out
    else if String.eqb out "" then "." else out.

(** [filepath.Join(a, b)]: the non-empty tail of the elements joined by
    a slash, then cleaned; [""] when both are empty. *)
Definition Join (a b : string) : string :=
  if negb (String.eqb a "") then Clean (a ++ "/" ++ b)
  else if negb (String.eqb b "") then Clean b
  else "".

End FilePath.

(** ** checkPythonVersion (lines 88-114) *)

Module Python.

(** The outcome of [checkPythonVersion]: the boolean it returns, a
    runtime panic (index out of range), or [os.Exit(1)] on the early
    error paths. *)
Inductive check_result :=
| Returns (b : bool)
| Panics
| Exits (code : nat).

(** The version parse of lines 107-113 on the combined output
    [cmdOut]: first line, fields split on a single space, [line[1]],
    prefix test. Indexing past the end of [line] panics. *)
Definition parse_version (cmdOut : string) : check_result :=
  let lines := GoStr.split "010"%char cmdOut in
  let first := match lines with l :: _ => l | [] => "" end in
  let line := GoStr.split " "%char first in
  match nth_error line 1 with
  | Some pyVer => Returns (GoStr.HasPrefix pyVer "3.11")
  | None => Panics
  end.

(** [checkPythonVersion]: [lookPath] says whether [python3] is on the
    search path; [run] is the combined output of [PyPath --version], or
    [None] when the command fails. *)
Definition checkPythonVersion (lookPath : bool) (run : option string)
  : check_result :=
  if negb lookPath then Exits 1
  else match run with
       | None => Exits 1
       | Some cmdOut => parse_version cmdOut
       end.

(** The outcome of [validPython] (lines 76-86): the install continues,
    the process exits, or the version check panics. *)
Inductive valid_result := Continue | VExit (code : nat) | VPanic.

Definition validPython (lookPath : bool) (run : option string) : valid_result :=
  match checkPythonVersion lookPath run with
  | Returns true => Continue
  | Returns false => VExit 1
  | Panics => VPanic
  | Exits c => VExit c
  end.

End Python.

(** ** bootstrapInstall (lines 21-73) *)

Module Bootstrap.

Record Command := mkCommand { Cmd : string; Errmsg : string; Hard : bool }.

Inductive event :=
| EvGetUbuntu (id : string)
| EvGetRHEL (id : string)
| EvUnsupported (id : string)
| EvCmdsForTarget (id : string)
| EvSendCmd (c : Command)
| EvExit (code : nat).

Record targetOS := mkTarget { distro : string; id : string }.

Section Bootstrap.

(** The [distros] package: [GetUbuntu]/[GetRHEL] register the command
    table of a version id in the bootstrap package, or fail; the
    registered table is what [CmdsForTarget] returns, or it fails. *)
Variable GetUbuntu : string -> option (list Command).
Variable GetRHEL : string -> option (list Command).
Variable CmdsForTarget : list Command -> string -> option (list Command).

(** Modelled from the spec: [sendCmd] (not in this file) runs one command;
    [succeeds] says whether the child process succeeded. A failed [Hard]
    command stops the run with exit status 1; a failed soft one is logged
    and the run continues (spec 4.2). *)
Variable succeeds : Command -> bool.

Fixpoint run_cmds (cmds : list Command) (tr : list event) : list event :=
  match cmds with
  | [] => rev tr
  | c :: cs =>
      if negb (succeeds c) && Hard c then rev (EvExit 1 :: EvSendCmd c :: tr)
      else run_cmds cs (EvSendCmd c :: tr)
  end.

(** Commands-run trace of [bootstrapInstall]; an [EvExit] is last when the
    process exits. *)
Definition bootstrapInstall (t : targetOS) : list event :=
  let registered :=
    if String.eqb (GoStr.ToLower (distro t)) "ubuntu" then
      Some (EvGetUbuntu (id t), GetUbuntu (id t))
    else if String.eqb (GoStr.ToLower (distro t)) "rhel" then
      Some (EvGetRHEL (id t), GetRHEL (id t))
    else None in
  match registered with
  | None => [EvUnsupported (id t); EvExit 1]
  | Some (ev, None) => [ev; EvExit 1]
  | Some (ev, Some pkg) =>
      match CmdsForTarget pkg (id t) with
      | None => [ev; EvCmdsForTarget (id t); EvExit 1]
      | Some tCmds => ev :: EvCmdsForTarget (id t) :: run_cmds tCmds []
      end
  end.

End Bootstrap.

End Bootstrap.

(** ** Release and source acquisition (lines 116-353) *)

Module Acquire.

Local Open Scope string_scope.

(** *** Data *)

(** A filesystem entry and the filesystem: an association list from
    cleaned absolute paths to entries, one binding per path. *)
Inductive node := NFile (content : string) | NDir.

Definition fsys := list (string * node).

Inductive errno := EEXIST | ENOENT | ENOTDIR | EISDIR | EINVAL | EACCES.

(** The error values the functions return. *)
Inductive goerr :=
| PathError (op path : string) (e : errno)
| LinkError (op oldp newp : string) (e : errno)
| ConfigError (msg : string)
| NetError (url : string)
| CopyError (path : string)
| TarError (path : string)
| GitError (op : string).

(** Effects the functions perform, in order. [EvHttpGet], [EvClone] and
    [EvCloneBranch] are the network requests. *)
Inductive event :=
| EvMkdirAll (p : string)
| EvHttpGet (url : string)
| EvCreate (p : string)
| EvOpen (p : string)
| EvUntar (root : string)
| EvRename (oldp newp : string)
| EvClone (url p : string)
| EvCloneBranch (url p ref : string)
| EvWorktree
| EvCheckout (h : list nat).

Definition is_network (e : event) : bool :=
  match e with
  | EvHttpGet _ | EvClone _ _ | EvCloneBranch _ _ _ => true
  | _ => false
  end.

(** The [Install] section of the configuration and [DDConfig]. *)
Record Install := mkInstall {
  Root : string; Source : string; Version : string;
  SourceInstall : bool; PullSource : bool;
  SourceCommit : string; SourceBranch : string }.

Record DDConfig := mkDD { conf : Install; cloneURL : string; releaseURL : string }.

(** The outside world the functions query: each field is the answer of
    one system, network or library call. *)
Record Env := mkEnv {
  mkdir_ok : string -> bool;            (* permission to create the path *)
  http_get : string -> option string;   (* response body; None: client error, nil resp *)
  close_ok : bool;                      (* resp.Body.Close() succeeds *)
  create_ok : string -> bool;
  copy_body : string -> string * bool;  (* io.Copy: bytes written, completed *)
  open_ok : string -> bool;
  tar_entries : string -> option (list (string * node)); (* archive contents *)
  write_ok : string -> bool;            (* untar may write this path *)
  clone_ok : string -> string -> bool;  (* git.PlainClone(url, path) *)
  branch_clone_ok : string -> string -> string -> bool;
  repo_worktree : bool * option goerr;  (* repo.Worktree(): non-nil?, error *)
  checkout_ok : list nat -> bool }.

(** The state: the filesystem and the effects performed so far. *)
Record St := mkSt { fs : fsys; trace : list event }.

(** Outcomes: a returned value, a returned error, a runtime panic, or
    [os.Exit(code)]. *)
Inductive res (A : Type) :=
| Ok (a : A)
| Err (e : goerr)
| Panic
| Exit (code : nat).
Arguments Ok {A}. Arguments Err {A}. Arguments Panic {A}. Arguments Exit {A}.

Definition M (A : Type) := St -> res A * St.

Definition ret {A} (a : A) : M A := fun st => (Ok a, st).

Definition bind {A B} (m : M A) (k : A -> M B) : M B :=
  fun st =>
    match m st with
    | (Ok a, st') => k a st'
    | (Err e, st') => (Err e, st')
    | (Panic, st') => (Panic, st')
    | (Exit c, st') => (Exit c, st')
    end.

Notation "x <- m ;; k" := (bind m (fun x => k))
  (at level 61, m at next level, right associativity).
Notation "m ;; k" := (bind m (fun _ => k)) (at level 61, right associativity).

Definition fail {A} (e : goerr) : M A := fun st => (Err e, st).
Definition panic {A} : M A := fun st => (Panic, st).
Definition emit (e : event) : M unit :=
  fun st => (Ok tt, mkSt (fs st) (app (trace st) [e])).

(** *** Filesystem primitives *)

Definition key (p : string) : string := FilePath.Clean p.

Fixpoint lookup (f : fsys) (k : string) : option node :=
  match f with
  | [] => None
  | (k', n) :: f' => if String.eqb k k' then Some n else lookup f' k
  end.

Definition fs_lookup (f : fsys) (p : string) : option node :=
  if String.eqb (key p) "/" then Some NDir else lookup f (key p).

Definition fs_set (f : fsys) (p : string) (n : node) : fsys :=
  (key p, n) :: filter (fun kn => negb (String.eqb (fst kn) (key p))) f.

Definition get_fs : M fsys := fun st => (Ok (fs st), st).
Definition put_fs (f : fsys) : M unit := fun st => (Ok tt, mkSt f (trace st)).
Definition modify_fs (g : fsys -> fsys) : M unit :=
  fun st => (Ok tt, mkSt (g (fs st)) (trace st)).

(** [os.Stat(p)] succeeds. *)
Definition Stat (p : string) : M bool :=
  fun st => (Ok (match fs_lookup (fs st) p with Some _ => true | None => false end), st).

(** The directories [os.MkdirAll(p)] makes, in order: the parents of
    the cleaned path, outermost first, then [p] itself: [/opt/dojo/x]
    gives [/opt], [/opt/dojo], [/opt/dojo/x]. *)
Definition ancestors (p : string) : list string :=
  let k := key p in
  let parts := filter (fun s => negb (String.eqb s "")) (GoStr.split "/"%char k) in
  let pre := if FilePath.is_rooted k then "/" else "" in
  app (map (fun n => (pre ++ GoStr.Join (firstn n parts) "/")%string)
           (seq 1 (length parts - 1))) [p].

Fixpoint mkdirs (ps : list string) : M unit :=
  match ps with
  | [] => ret tt
  | a :: ps' =>
      f <- get_fs;;
      match fs_lookup f a with
      | Some NDir => mkdirs ps'
      | Some (NFile _) => fail (PathError "mkdir" a ENOTDIR)
      | None => put_fs (fs_set f a NDir);; mkdirs ps'
      end
  end.

(** [plumbing.NewHash(s)]: [hex.DecodeString(s)] keeps the bytes decoded
    before the first malformed pair (a trailing odd digit is dropped), and
    they are copied into a zeroed 20-byte hash. *)
Definition hexval (c : ascii) : option nat :=
  let n := nat_of_ascii c in
  if (48 <=? n)%nat && (n <=? 57)%nat then Some (n - 48)%nat
  else if (97 <=? n)%nat && (n <=? 102)%nat then Some (n - 87)%nat
  else if (65 <=? n)%nat && (n <=? 70)%nat then Some (n - 55)%nat
  else None.

Fixpoint hex_decode (s : string) : list nat :=
  match s with
  | String a (String b rest) =>
      match hexval a, hexval b with
      | Some x, Some y => (16 * x + y)%nat :: hex_decode rest
      | _, _ => []
      end
  | _ => []
  end.

Definition NewHash (s : string) : list nat :=
  let b := firstn 20 (hex_decode s) in
  app b (repeat 0%nat (20 - length b)).

(** The paths at or below [q]. *)
Definition under (q p : string) : bool :=
  String.eqb p q || String.prefix (q ++ "/") p.

Definition rebase (q q' p : string) : string :=
  q' ++ substring (String.length q) (String.length p - String.length q) p.

(** The tree at [o] moved to [n], replacing what was at [n]. *)
Definition move_tree (f : fsys) (o n : string) : fsys :=
  map (fun kn => if under o (fst kn) then (rebase o n (fst kn), snd kn) else kn)
      (filter (fun kn => negb (under n (fst kn))) f).

Section Ops.

Variable env : Env.

(** [os.MkdirAll(p, 0755)]. *)
Definition MkdirAll (p : string) : M unit :=
  emit (EvMkdirAll p);;
  if String.eqb p "" then fail (PathError "mkdir" p ENOENT)
  else if mkdir_ok env p then mkdirs (ancestors p)
  else fail (PathError "mkdir" p EACCES).

(** [os.Rename(oldp, newp)] on Unix: Go first refuses an existing
    directory at [newp] with EEXIST (unless both name the same file),
    then calls rename(2), which moves the tree. *)
Definition Rename (oldp newp : string) : M unit :=
  f <- get_fs;;
  let o := key oldp in
  let n := key newp in
  match fs_lookup f newp, fs_lookup f oldp with
  | Some NDir, None => fail (LinkError "rename" oldp newp ENOENT)
  | Some NDir, Some _ =>
      if String.eqb newp oldp || negb (String.eqb o n)
      then fail (LinkError "rename" oldp newp EEXIST)
      else ret tt
  | _, None => fail (LinkError "rename" oldp newp ENOENT)
  | Some (NFile _), Some NDir => fail (LinkError "rename" oldp newp ENOTDIR)
  | _, Some NDir =>
      if String.prefix (o ++ "/") n then fail (LinkError "rename" oldp newp EINVAL)
      else put_fs (move_tree f o n)
  | _, Some (NFile _) =>
      if String.eqb o n then ret tt else put_fs (move_tree f o n)
  end.

(** [os.Open(p)]: the file's content, or [None] for a directory, which
    opens but does not read as an archive. *)
Definition Open (p : string) : M (option string) :=
  emit (EvOpen p);;
  f <- get_fs;;
  match fs_lookup f p with
  | None => fail (PathError "open" p ENOENT)
  | Some nd =>
      if open_ok env p
      then ret (match nd with NFile c => Some c | NDir => None end)
      else fail (PathError "open" p EACCES)
  end.

(** [os.Create(p)]: an empty file. *)
Definition Create (p : string) : M unit :=
  emit (EvCreate p);;
  f <- get_fs;;
  match fs_lookup f p with
  | Some NDir => fail (PathError "open" p EISDIR)
  | _ =>
      if create_ok env p then put_fs (fs_set f p (NFile ""))
      else fail (PathError "open" p EACCES)
  end.

(** [io.Copy(out, resp.Body)]: what was written stays in the file. *)
Definition Copy (p body : string) : M unit :=
  let (written, complete) := copy_body env body in
  modify_fs (fun f => fs_set f p (NFile written));;
  if complete then ret tt else fail (CopyError p).

(** Modelled from the spec: [untar] (not in this file) opens the archive
    and writes every entry under [root], keeping its relative path; the
    first entry that cannot be written aborts with its error (spec 4.5). *)
Definition write_entry (target : string) (nd : node) : M unit :=
  f <- get_fs;;
  if negb (write_ok env target) then fail (PathError "untar" target EACCES)
  else match nd, fs_lookup f target with
       | NDir, Some (NFile _) => fail (PathError "mkdir" target EEXIST)
       | NFile _, Some NDir => fail (PathError "open" target EISDIR)
       | _, _ => put_fs (fs_set f target nd)
       end.

Fixpoint write_entries (root : string) (es : list (string * node)) : M unit :=
  match es with
  | [] => ret tt
  | (name, nd) :: es' => write_entry (FilePath.Join root name) nd;; write_entries root es'
  end.

Definition untar (root : string) (tb : option string) : M unit :=
  emit (EvUntar root);;
  match tb with
  | None => fail (TarError root)
  | Some c =>
      match tar_entries env c with
      | None => fail (TarError root)
      | Some es => write_entries root es
      end
  end.

(** The deferred [resp.Body.Close()]: a close error exits the process
    once the function has returned. *)
Definition deferClose {A} (m : M A) : M A :=
  fun st => let (r, st') := m st in if close_ok env then (r, st') else (Exit 1, st').

(** [extractRelease] (lines 246-270). *)
Definition extractRelease (c : Install) (t : string) : M unit :=
  tb <- Open t;;
  untar (Root c) tb;;
  let oldPath := FilePath.Join (Root c) ("django-DefectDojo-" ++ Version c) in
  let newPath := FilePath.Join (Root c) (Source c) in
  emit (EvRename oldPath newPath);;
  Rename oldPath newPath.

Definition tarballPath (c : Install) : string :=
  Root c ++ "/dojo-v" ++ Version c ++ ".tar.gz".

Definition ensureDir (p : string) : M unit :=
  ex <- Stat p;;
  if ex then ret tt else MkdirAll p.

(** The download branch of [getDojoRelease] (lines 190-243). *)
Definition downloadRelease (d : DDConfig) (tarball : string) : M unit :=
  let dwnURL := releaseURL d ++ Version (conf d) ++ ".tar.gz" in
  emit (EvHttpGet dwnURL);;
  match http_get env dwnURL with
  | None => fail (NetError dwnURL)
  | Some body =>
      deferClose (Create tarball;; Copy tarball body;; extractRelease (conf d) tarball)
  end.

(** [getDojoRelease] (lines 152-244). *)
Definition getDojoRelease (d : DDConfig) : M unit :=
  let c := conf d in
  ensureDir (Root c);;
  let tarball := tarballPath c in
  have <- Stat tarball;;
  if have then extractRelease c tarball
  else downloadRelease d tarball.

(** The message of the error built at lines 325-326. *)
Definition configErrorMsg (commit branch : string) : string :=
  "Both source commit and branch have empty or nonsensical values configured."
  ++ String "010"%char EmptyString
  ++ "  Source commit was configured as " ++ commit
  ++ " and branch was configured as " ++ branch.

(** [git.PlainClone]: the clone leaves a repository in [p]. *)
Definition PlainClone (ok : bool) (p : string) : M unit :=
  if ok then modify_fs (fun f => fs_set f (FilePath.Join p ".git") NDir)
  else fail (GitError "clone").

(** The commit branch of [getDojoSource] (lines 298-321). *)
Definition commitPath (d : DDConfig) (srcPath : string) : M unit :=
  let c := conf d in
  emit (EvClone (cloneURL d) srcPath);;
  PlainClone (clone_ok env (cloneURL d) srcPath) srcPath;;
  emit EvWorktree;;
  let (wk, _) := repo_worktree env in
  let h := NewHash (SourceCommit c) in
  if wk then
    emit (EvCheckout h);;
    if checkout_ok env h then ret tt else fail (GitError "checkout")
  else panic.

(** The branch branch of [getDojoSource] (lines 330-346). *)
Definition branchPath (d : DDConfig) (srcPath : string) : M unit :=
  let c := conf d in
  let ref := "refs/heads/" ++ SourceBranch c in
  emit (EvCloneBranch (cloneURL d) srcPath ref);;
  PlainClone (branch_clone_ok env (cloneURL d) srcPath ref) srcPath.

(** [getDojoSource] (lines 275-353). *)
Definition getDojoSource (d : DDConfig) : M unit :=
  let c := conf d in
  let srcPath := FilePath.Join (Root c) (Source c) in
  ensureDir srcPath;;
  if (0 <? String.length (SourceCommit c))%nat then commitPath d srcPath
  else if (String.length (SourceBranch c) =? 0)%nat then
    fail (ConfigError (configErrorMsg (SourceCommit c) (SourceBranch c)))
  else branchPath d srcPath.

Definition exitOnError {A} (m : M A) : M A :=
  fun st => match m st with
            | (Err _, st') => (Exit 1, st')
            | r => r
            end.

(** [downloadDojo] (lines 118-148). *)
Definition downloadDojo (d : DDConfig) : M unit :=
  if PullSource (conf d) then
    if SourceInstall (conf d) then exitOnError (getDojoSource d)
    else exitOnError (getDojoRelease d)
  else ret tt.

End Ops.

End Acquire.

(** ** The spec's reading of the version check *)

Module SpecPython.

(** The spec's "whitespace-separated token": [strings.Fields], splitting
    at runs of ASCII white space. *)
Definition is_space (c : ascii) : bool :=
  match nat_of_ascii c with
  | 32 | 9 | 10 | 11 | 12 | 13 => true
  | _ => false
  end.

Fixpoint fields_acc (cur : string) (s : string) : list string :=
  match s with
  | EmptyString => if String.eqb cur "" then [] else [cur]
  | String c rest =>
      if is_space c then
        if String.eqb cur "" then fields_acc "" rest
        else cur :: fields_acc "" rest
      else fields_acc (cur ++ String c EmptyString) rest
  end.

Definition Fields (s : string) : list string := fields_acc "" s.

(** Accepted as the spec words it: the second whitespace-separated token
    of the first line has prefix [3.11]. *)
Definition spec_accepts (cmdOut : string) : bool :=
  let first := match GoStr.split "010"%char cmdOut with l :: _ => l | [] => "" end in
  match nth_error (Fields first) 1 with
  | Some v => GoStr.HasPrefix v "3.11"
  | None => false
  end.

End SpecPython.

(** ** Configurations and environments used by the proofs *)

Module Scenario.

Import Acquire.
Local Open Scope string_scope.

(** [d] with its [SourceBranch] replaced. *)
Definition with_branch (d : DDConfig) (b : string) : DDConfig :=
  let c := conf d in
  mkDD (mkInstall (Root c) (Source c) (Version c) (SourceInstall c) (PullSource c)
                  (SourceCommit c) b)
       (cloneURL d) (releaseURL d).

(** [env] with [repo.Worktree()] answering [w]. *)
Definition with_worktree (env : Env) (w : bool * option goerr) : Env :=
  mkEnv (mkdir_ok env) (http_get env) (close_ok env) (create_ok env) (copy_body env)
        (open_ok env) (tar_entries env) (write_ok env) (clone_ok env)
        (branch_clone_ok env) w (checkout_ok env).

(** An environment where every call succeeds except the directory
    creations [mkdir] refuses; the release archive served and stored has
    the entries [archive]. *)
Definition testEnv (mkdir : string -> bool) (archive : list (string * node)) : Env :=
  mkEnv mkdir (fun _ => Some "ARCHIVE") true (fun _ => true) (fun b => (b, true))
        (fun _ => true)
        (fun c => if String.eqb c "ARCHIVE" then Some archive else None)
        (fun _ => true) (fun _ _ => true) (fun _ _ _ => true) (true, None)
        (fun _ => true).

(** The archive GitHub serves for tag [2.30.0]. *)
Definition release_2_30_0 : list (string * node) :=
  [("django-DefectDojo-2.30.0", NDir);
   ("django-DefectDojo-2.30.0/manage.py", NFile "#!/usr/bin/env python")].

(** An archive whose top directory is named [<app>-v<version>]. *)
Definition release_v2_30_0 : list (string * node) :=
  [("django-DefectDojo-v2.30.0", NDir);
   ("django-DefectDojo-v2.30.0/manage.py", NFile "#!/usr/bin/env python")].

Definition installCfg (sourceInstall : bool) (commit branch : string) : DDConfig :=
  mkDD (mkInstall "/opt/dojo" "django-DefectDojo" "2.30.0" sourceInstall true commit branch)
       "https://github.com/DefectDojo/django-DefectDojo.git"
       "https://github.com/DefectDojo/django-DefectDojo/archive/".

Definition emptySt : St := mkSt [] [].

(** [/opt/dojo] with the release tarball already downloaded. *)
Definition tarballSt : St :=
  mkSt [("/opt/dojo/dojo-v2.30.0.tar.gz", NFile "ARCHIVE"); ("/opt/dojo", NDir); ("/opt", NDir)] [].

(** [/opt/dojo] exists and holds nothing yet. *)
Definition rootSt : St := mkSt [("/opt/dojo", NDir); ("/opt", NDir)] [].

(** [env] with the release download answering [get], [io.Copy] answering
    [copy] and [resp.Body.Close()] succeeding when [close] holds. *)
Definition with_download (env : Env) (get : string -> option string)
  (copy : string -> string * bool) (close : bool) : Env :=
  mkEnv (mkdir_ok env) get close (create_ok env) copy (open_ok env) (tar_entries env)
        (write_ok env) (clone_ok env) (branch_clone_ok env) (repo_worktree env)
        (checkout_ok env).

End Scenario.

(** * Proofs *)

Module PythonProofs.

Import Python.
Local Open Scope string_scope.

Lemma append_nil_r' (s : string) : s ++ "" = s.
Proof. induction s; simpl; congruence. Qed.

(** Whether [s] contains the character [c]. *)
Fixpoint has_char (c : ascii) (s : string) : bool :=
  match s with
  | EmptyString => false
  | String c' rest => Ascii.eqb c' c || has_char c rest
  end.

Lemma split_not_nil (sep : ascii) (s : string) : GoStr.split sep s <> [].
Proof.
  induction s as [|c s IH]; simpl; [discriminate|].
  destruct (Ascii.eqb c sep); [discriminate|].
  destruct (GoStr.split sep s); discriminate.
Qed.

Lemma split_app_nosep (sep : ascii) (a b : string) :
  has_char sep a = false ->
  GoStr.split sep (a ++ b) =
  match GoStr.split sep b with
  | f :: fs => (a ++ f) :: fs
  | [] => [a]
  end.
Proof.
  induction a as [|c a IH]; simpl; intros H.
  - destruct (GoStr.split sep b) eqn:E; [exfalso; exact (split_not_nil sep b E)|].
    reflexivity.
  - apply orb_false_iff in H as [Hc Ha].
    rewrite Hc, (IH Ha).
    destruct (GoStr.split sep b); reflexivity.
Qed.

Lemma split_nosep (sep : ascii) (a : string) :
  has_char sep a = false -> GoStr.split sep a = [a].
Proof.
  intros H. rewrite <- (append_nil_r' a) at 1.
  rewrite (split_app_nosep sep a "" H). simpl. rewrite append_nil_r'. reflexivity.
Qed.

Lemma append_assoc' (a b c : string) : (a ++ b) ++ c = a ++ b ++ c.
Proof. induction a; simpl; congruence. Qed.

Lemma has_char_app (c : ascii) (a b : string) :
  has_char c (a ++ b) = has_char c a || has_char c b.
Proof. induction a as [|x a IH]; simpl; [reflexivity|]. rewrite IH, orb_assoc. reflexivity. Qed.

(** The parse of a [--version] output of the form [Python <v>] followed
    by a newline: the result is the prefix test on [v]. *)
Lemma parse_version_python_line (v rest : string) :
  has_char " "%char v = false -> has_char "010"%char v = false ->
  parse_version ("Python " ++ v ++ String "010"%char rest) =
  Returns (GoStr.HasPrefix v "3.11").
Proof.
  intros Hsp Hnl. unfold parse_version.
  replace ("Python " ++ v ++ String "010"%char rest)
    with (("Python " ++ v) ++ String "010"%char rest) by apply append_assoc'.
  rewrite split_app_nosep by (rewrite has_char_app, Hnl; reflexivity).
  simpl GoStr.split at 2. cbn -[GoStr.split GoStr.HasPrefix].
  rewrite append_nil_r'.
  simpl. rewrite (split_nosep _ v Hsp). reflexivity.
Qed.
End PythonProofs.

Module BootstrapProofs.

Import Bootstrap.
Local Open Scope string_scope.

Section Dispatch.

Variables (GetUbuntu GetRHEL : string -> option (list Command))
          (CmdsForTarget : list Command -> string -> option (list Command))
          (succeeds : Command -> bool).

Let boot := bootstrapInstall GetUbuntu GetRHEL CmdsForTarget succeeds.

Lemma boot_ubuntu (t : targetOS) :
  GoStr.ToLower (distro t) = "ubuntu" -> hd_error (boot t) = Some (EvGetUbuntu (id t)).
Proof.
  intros H. subst boot. unfold bootstrapInstall. rewrite H. simpl.
  destruct (GetUbuntu (id t)) as [pkg|]; [|reflexivity].
  destruct (CmdsForTarget pkg (id t)); reflexivity.
Qed.

Lemma boot_rhel (t : targetOS) :
  GoStr.ToLower (distro t) = "rhel" -> hd_error (boot t) = Some (EvGetRHEL (id t)).
Proof.
  intros H. subst boot. unfold bootstrapInstall. rewrite H. simpl.
  destruct (GetRHEL (id t)) as [pkg|]; [|reflexivity].
  destruct (CmdsForTarget pkg (id t)); reflexivity.
Qed.

Lemma boot_unsupported (t : targetOS) :
  GoStr.ToLower (distro t) <> "ubuntu" -> GoStr.ToLower (distro t) <> "rhel" ->
  boot t = [EvUnsupported (id t); EvExit 1].
Proof.
  intros Hu Hr. subst boot. unfold bootstrapInstall.
  apply String.eqb_neq in Hu, Hr. rewrite Hu, Hr. reflexivity.
Qed.

Lemma boot_lower_only (s1 s2 i : string) :
  GoStr.ToLower s1 = GoStr.ToLower s2 -> boot (mkTarget s1 i) = boot (mkTarget s2 i).
Proof. intros H. subst boot. unfold bootstrapInstall. simpl. rewrite H. reflexivity. Qed.

End Dispatch.

End BootstrapProofs.

Module AcquireProofs.

Import Acquire.
Local Open Scope string_scope.

(** ** Monotone effects *)

(** [m] relates every state to the state it leaves, whatever it returns. *)
Definition respects {A} (R : St -> St -> Prop) (m : M A) : Prop :=
  forall st, R st (snd (m st)).

Section Respects.

Variable R : St -> St -> Prop.
Hypothesis R_refl : forall st, R st st.
Hypothesis R_trans : forall a b c, R a b -> R b c -> R a c.

Lemma resp_ret {A} (a : A) : respects R (ret a).
Proof. intros st. apply R_refl. Qed.

Lemma resp_fail {A} (e : goerr) : respects R (@fail A e).
Proof. intros st. apply R_refl. Qed.

Lemma resp_panic {A} : respects R (@panic A).
Proof. intros st. apply R_refl. Qed.

Lemma resp_get : respects R get_fs.
Proof. intros st. apply R_refl. Qed.

Lemma resp_bind {A B} (m : M A) (k : A -> M B) :
  respects R m -> (forall a, respects R (k a)) -> respects R (bind m k).
Proof.
  intros Hm Hk st. unfold bind. specialize (Hm st).
  destruct (m st) as [[a|e| |c] st'] eqn:E; simpl in *; try exact Hm.
  exact (R_trans _ _ _ Hm (Hk a st')).
Qed.

Lemma resp_deferClose (env : Env) {A} (m : M A) :
  respects R m -> respects R (deferClose env m).
Proof.
  intros Hm st. unfold deferClose. specialize (Hm st).
  destruct (m st) as [r st']. destruct (close_ok env); exact Hm.
Qed.

End Respects.

(** Effects that only append events satisfying [P]. *)
Definition grows (P : event -> Prop) (st st' : St) : Prop :=
  exists l, trace st' = app (trace st) l /\ Forall P l.

Lemma grows_refl P st : grows P st st.
Proof. exists []. rewrite app_nil_r. auto. Qed.

Lemma grows_trans P a b c : grows P a b -> grows P b c -> grows P a c.
Proof.
  intros [l1 [E1 F1]] [l2 [E2 F2]]. exists (app l1 l2).
  rewrite E2, E1, app_assoc. split; [reflexivity|]. apply Forall_app; auto.
Qed.

Lemma grows_emit P e : P e -> respects (grows P) (emit e).
Proof. intros He st. exists [e]. simpl. auto. Qed.

Lemma grows_put P f : respects (grows P) (put_fs f).
Proof. intros st. exists []. simpl. rewrite app_nil_r. auto. Qed.

Lemma grows_modify P g : respects (grows P) (modify_fs g).
Proof. intros st. exists []. simpl. rewrite app_nil_r. auto. Qed.

Lemma grows_Stat P p : respects (grows P) (Stat p).
Proof. intros st. exists []. simpl. rewrite app_nil_r. auto. Qed.

Lemma grows_bind P {A B} (m : M A) (k : A -> M B) :
  respects (grows P) m -> (forall a, respects (grows P) (k a)) ->
  respects (grows P) (bind m k).
Proof. exact (resp_bind _ (grows_trans P) m k). Qed.

Ltac grows_step :=
  match goal with
  | |- respects _ (bind _ _) => apply grows_bind; [|intros ?]
  | |- respects _ (ret _) => apply resp_ret; exact (grows_refl _)
  | |- respects _ (fail _) => apply resp_fail; exact (grows_refl _)
  | |- respects _ panic => apply resp_panic; exact (grows_refl _)
  | |- respects _ get_fs => apply resp_get; exact (grows_refl _)
  | |- respects _ (put_fs _) => apply grows_put
  | |- respects _ (modify_fs _) => apply grows_modify
  | |- respects _ (Stat _) => apply grows_Stat
  | |- respects _ (emit _) => apply grows_emit
  | |- respects _ (deferClose _ _) =>
      apply resp_deferClose
  | |- respects _ (match ?x with _ => _ end) => destruct x
  end.

Ltac grows_solve := repeat grows_step.

Section Grows.

Variable P : event -> Prop.
Variable env : Env.

Lemma grows_mkdirs ps : respects (grows P) (mkdirs ps).
Proof. induction ps as [|a ps IH]; simpl; grows_solve; auto. Qed.

Lemma grows_ensureDir p : P (EvMkdirAll p) -> respects (grows P) (ensureDir env p).
Proof.
  intros Hp. unfold ensureDir, MkdirAll. grows_solve; auto using grows_mkdirs.
Qed.

End Grows.

(** ** Filesystem lemmas *)

Definition present (f : fsys) (q : string) : Prop := fs_lookup f q <> None.

Lemma lookup_filter_neq (f : fsys) (k k' : string) :
  k <> k' ->
  lookup (filter (fun kn => negb (String.eqb (fst kn) k')) f) k = lookup f k.
Proof.
  intros Hne. induction f as [|[k0 n0] f IH]; simpl; [reflexivity|].
  destruct (String.eqb_spec k0 k') as [->|Hk0]; simpl.
  - destruct (String.eqb_spec k k') as [->|_]; [congruence|]. exact IH.
  - rewrite IH. reflexivity.
Qed.

Lemma present_set_same (f : fsys) (a : string) (n : node) : present (fs_set f a n) a.
Proof.
  unfold present, fs_lookup, fs_set.
  destruct (String.eqb (key a) "/"); [discriminate|].
  simpl. rewrite String.eqb_refl. discriminate.
Qed.

Lemma present_set_other (f : fsys) (a q : string) (n : node) :
  present f q -> present (fs_set f a n) q.
Proof.
  unfold present, fs_lookup, fs_set.
  destruct (String.eqb (key q) "/"); [auto|].
  simpl. destruct (String.eqb_spec (key q) (key a)) as [_|Hne]; [discriminate|].
  rewrite lookup_filter_neq by exact Hne. auto.
Qed.

Lemma lookup_set_other (f : fsys) (a q : string) (n : node) :
  key q <> key a -> fs_lookup (fs_set f a n) q = fs_lookup f q.
Proof.
  intros Hne. unfold fs_lookup, fs_set.
  destruct (String.eqb (key q) "/"); [reflexivity|].
  simpl. apply String.eqb_neq in Hne. rewrite Hne.
  apply lookup_filter_neq. apply String.eqb_neq. exact Hne.
Qed.

Section FsLemmas.

Variable env : Env.

Lemma mkdirs_mono ps : forall st q,
  present (fs st) q -> present (fs (snd (mkdirs ps st))) q.
Proof.
  induction ps as [|a ps IH]; intros st q Hq; simpl; [exact Hq|].
  unfold bind, get_fs. simpl.
  destruct (fs_lookup (fs st) a) as [[c|]|]; simpl.
  - exact Hq.
  - apply IH. exact Hq.
  - unfold put_fs. apply IH. simpl. apply present_set_other. exact Hq.
Qed.

Lemma mkdirs_ok ps : forall st st',
  mkdirs ps st = (Ok tt, st') -> forall a, In a ps -> present (fs st') a.
Proof.
  induction ps as [|a ps IH]; intros st st' E b Hb; [destruct Hb|].
  simpl in E. unfold bind, get_fs in E. simpl in E.
  assert (Hstep : exists st1, present (fs st1) a /\ mkdirs ps st1 = (Ok tt, st')).
  { destruct (fs_lookup (fs st) a) as [[c|]|] eqn:La; simpl in E.
    - discriminate.
    - exists st. split; [unfold present; rewrite La; discriminate | exact E].
    - unfold put_fs in E. eexists. split; [|exact E]. apply present_set_same. }
  destruct Hstep as [st1 [Ha E1]].
  destruct Hb as [<-|Hb].
  - replace st' with (snd (mkdirs ps st1)) by (rewrite E1; reflexivity).
    apply mkdirs_mono. exact Ha.
  - exact (IH st1 st' E1 b Hb).
Qed.

Lemma MkdirAll_mono p st q :
  present (fs st) q -> present (fs (snd (MkdirAll env p st))) q.
Proof.
  intros Hq. unfold MkdirAll, bind, emit. simpl.
  destruct (String.eqb p ""); simpl; [exact Hq|].
  destruct (mkdir_ok env p); simpl; [|exact Hq].
  apply mkdirs_mono. exact Hq.
Qed.

Lemma ensureDir_mono p st q :
  present (fs st) q -> present (fs (snd (ensureDir env p st))) q.
Proof.
  intros Hq. unfold ensureDir, bind, Stat. simpl.
  destruct (fs_lookup (fs st) p); simpl; [exact Hq|].
  apply MkdirAll_mono. exact Hq.
Qed.

Lemma MkdirAll_ok p st st' :
  MkdirAll env p st = (Ok tt, st') -> present (fs st') p.
Proof.
  unfold MkdirAll, bind, emit. simpl.
  destruct (String.eqb p ""); simpl; [discriminate|].
  destruct (mkdir_ok env p); simpl; [|discriminate].
  intros E. apply (mkdirs_ok _ _ _ E). unfold ancestors. apply in_or_app. right. left. reflexivity.
Qed.

End FsLemmas.

Section GrowsOps.

Variable P : event -> Prop.
Variable env : Env.

Lemma grows_write_entries root es : respects (grows P) (write_entries env root es).
Proof.
  induction es as [|[name nd] es IH]; simpl; grows_solve; auto.
  unfold write_entry. grows_solve.
Qed.

Lemma grows_extractRelease c t :
  P (EvOpen t) -> P (EvUntar (Root c)) -> (forall o n, P (EvRename o n)) ->
  respects (grows P) (extractRelease env c t).
Proof.
  intros Ho Hu Hr. unfold extractRelease, Open, untar, Rename.
  grows_solve; auto using grows_write_entries.
Qed.

Lemma grows_commitPath d sp :
  P (EvClone (cloneURL d) sp) -> P EvWorktree -> (forall h, P (EvCheckout h)) ->
  respects (grows P) (commitPath env d sp).
Proof. intros Hc Hw Hk. unfold commitPath, PlainClone. grows_solve; auto. Qed.

End GrowsOps.

(** Stat after [ensureDir] still finds what was there. *)
Lemma ensureDir_then_present {A} (env : Env) (p q : string) (yes no : M A) st :
  present (fs st) q ->
  (ensureDir env p;; have <- Stat q;; if have then yes else no) st
  = (ensureDir env p;; yes) st.
Proof.
  intros Hq. unfold bind at 1 3.
  pose proof (ensureDir_mono env p st q Hq) as Hq'.
  destruct (ensureDir env p st) as [[u|e| |c] st1]; simpl in *; try reflexivity.
  unfold bind, Stat. simpl. destruct (fs_lookup (fs st1) q) eqn:E; [reflexivity|].
  exfalso. exact (Hq' E).
Qed.

Lemma ensureDir_present (env : Env) (p : string) st :
  present (fs st) p -> ensureDir env p st = (Ok tt, st).
Proof.
  intros Hp. unfold ensureDir, bind, Stat. simpl.
  destruct (fs_lookup (fs st) p) eqn:E; [reflexivity|]. exfalso. exact (Hp E).
Qed.

Lemma mkdirs_err ps : forall st e,
  fst (mkdirs ps st) = Err e -> exists a en, e = PathError "mkdir" a en.
Proof.
  induction ps as [|a ps IH]; intros st e H; simpl in H; [discriminate|].
  unfold bind, get_fs in H. simpl in H.
  destruct (fs_lookup (fs st) a) as [[c|]|]; simpl in H.
  - injection H as <-. eauto.
  - exact (IH _ _ H).
  - exact (IH _ _ H).
Qed.

Lemma ensureDir_err (env : Env) p st e :
  fst (ensureDir env p st) = Err e -> exists a en, e = PathError "mkdir" a en.
Proof.
  unfold ensureDir, bind, Stat. simpl.
  destruct (fs_lookup (fs st) p); simpl; [discriminate|].
  unfold MkdirAll, bind, emit. simpl.
  destruct (String.eqb p ""); simpl; [intros H; injection H as <-; eauto|].
  destruct (mkdir_ok env p); simpl; [apply mkdirs_err|].
  intros H; injection H as <-; eauto.
Qed.

(** What [Rename] returns depends on the filesystem only. *)
Lemma Rename_result_fs oldp newp f tr tr' :
  fst (Rename oldp newp (mkSt f tr)) = fst (Rename oldp newp (mkSt f tr')).
Proof.
  unfold Rename, bind, get_fs. simpl.
  destruct (fs_lookup f newp) as [[?|]|], (fs_lookup f oldp) as [[?|]|];
    repeat match goal with |- context [if ?b then _ else _] => destruct b end;
    reflexivity.
Qed.

(** [MkdirAll] records its call whatever it returns. *)
Lemma MkdirAll_emits (env : Env) p st : In (EvMkdirAll p) (trace (snd (MkdirAll env p st))).
Proof.
  set (rest := if String.eqb p "" then fail (PathError "mkdir" p ENOENT)
               else if mkdir_ok env p then mkdirs (ancestors p)
               else fail (PathError "mkdir" p EACCES)).
  assert (H : respects (grows (fun _ => True)) rest).
  { subst rest. grows_solve; auto using grows_mkdirs. }
  change (MkdirAll env p st) with (rest (mkSt (fs st) (app (trace st) [EvMkdirAll p]))).
  destruct (H (mkSt (fs st) (app (trace st) [EvMkdirAll p]))) as [l [E _]].
  rewrite E. simpl. apply in_or_app. left. apply in_or_app. right. left. reflexivity.
Qed.

End AcquireProofs.

(** * The properties of the specification *)

Module Claims.

Import Acquire Scenario AcquireProofs.
Local Open Scope string_scope.

(** C1: when [SourceCommit] is non-empty, [getDojoSource] takes the commit
    path whatever [SourceBranch] holds: after making sure the source
    directory exists it clones [cloneURL] in full (no reference, not
    single-branch) into it and checks out [plumbing.NewHash(SourceCommit)]
    in the working tree; the single-branch clone never happens. *)
Theorem getDojoSource_commit_precedence (env : Env) (d : DDConfig) (st : St) :
  (0 < String.length (SourceCommit (conf d)))%nat ->
  let srcPath := FilePath.Join (Root (conf d)) (Source (conf d)) in
  getDojoSource env d st = (ensureDir env srcPath;; commitPath env d srcPath) st /\
  (forall b, getDojoSource env (with_branch d b) st = getDojoSource env d st) /\
  grows (fun e => forall u p r, e <> EvCloneBranch u p r) st (snd (getDojoSource env d st)) /\
  (forall st1, ensureDir env srcPath st = (Ok tt, st1) ->
     clone_ok env (cloneURL d) srcPath = true -> fst (repo_worktree env) = true ->
     trace (snd (getDojoSource env d st)) =
     app (trace st1) [EvClone (cloneURL d) srcPath; EvWorktree;
                      EvCheckout (NewHash (SourceCommit (conf d)))]).
Proof.
  intros Hc srcPath.
  assert (Hdec : getDojoSource env d st = (ensureDir env srcPath;; commitPath env d srcPath) st).
  { unfold getDojoSource. apply Nat.ltb_lt in Hc. rewrite Hc. reflexivity. }
  split; [exact Hdec|]. split; [|split].
  - intros b. unfold getDojoSource, with_branch. simpl.
    apply Nat.ltb_lt in Hc. rewrite Hc. reflexivity.
  - rewrite Hdec. apply grows_bind.
    + apply grows_ensureDir. intros u p r. discriminate.
    + intros _. apply grows_commitPath; intros; discriminate.
  - intros st1 E Hcl Hwk. rewrite Hdec. unfold bind at 1. rewrite E.
    unfold commitPath, PlainClone, emit, bind, modify_fs. simpl. rewrite Hcl. simpl.
    destruct (repo_worktree env) as [wk e]. simpl in Hwk. subst wk. simpl.
    destruct (checkout_ok env (NewHash (SourceCommit (conf d)))); simpl;
      rewrite <- !app_assoc; reflexivity.
Qed.

Lemma getDojoSource_commit_precedence_witness :
  (0 < String.length (SourceCommit (conf (installCfg true "2c5e34e3a6f0d2d4c0a6b7e1f9d8c3b2a1e0f9d8" "master"))))%nat /\
  getDojoSource (testEnv (fun _ => true) release_2_30_0)
    (with_branch (installCfg true "2c5e34e3a6f0d2d4c0a6b7e1f9d8c3b2a1e0f9d8" "master") "dev") emptySt =
  getDojoSource (testEnv (fun _ => true) release_2_30_0)
    (installCfg true "2c5e34e3a6f0d2d4c0a6b7e1f9d8c3b2a1e0f9d8" "master") emptySt.
Proof.
  split; [vm_compute; lia|].
  apply (getDojoSource_commit_precedence (testEnv (fun _ => true) release_2_30_0)
           (installCfg true "2c5e34e3a6f0d2d4c0a6b7e1f9d8c3b2a1e0f9d8" "master") emptySt).
  vm_compute. lia.
Defined.

(** C2, counterexample: with both selectors empty, when the source
    directory is missing and cannot be created, [getDojoSource] returns
    the [MkdirAll] error, not the configuration error. *)
Lemma getDojoSource_empty_selectors_mkdir_error :
  fst (getDojoSource (testEnv (fun _ => false) release_2_30_0) (installCfg true "" "") emptySt)
  = Err (PathError "mkdir" "/opt/dojo/django-DefectDojo" EACCES).
Proof. vm_compute. reflexivity. Qed.

(** C2 (amended): with [SourceCommit] and [SourceBranch] both empty,
    [getDojoSource] first makes sure the source directory exists and then
    returns the configuration error whose message names both (empty)
    values; when the directory can be found or created that error is the
    result, otherwise the [MkdirAll] error is. Either way no network
    request is made. *)
Theorem getDojoSource_empty_selectors (env : Env) (d : DDConfig) (st : St) :
  SourceCommit (conf d) = "" -> SourceBranch (conf d) = "" ->
  let srcPath := FilePath.Join (Root (conf d)) (Source (conf d)) in
  getDojoSource env d st = (ensureDir env srcPath;; fail (ConfigError (configErrorMsg "" ""))) st /\
  (present (fs st) srcPath \/ fst (MkdirAll env srcPath st) = Ok tt ->
     fst (getDojoSource env d st) = Err (ConfigError (configErrorMsg "" ""))) /\
  (forall e, fst (getDojoSource env d st) = Err e ->
     e = ConfigError (configErrorMsg "" "") \/ exists a en, e = PathError "mkdir" a en) /\
  grows (fun e => is_network e = false) st (snd (getDojoSource env d st)).
Proof.
  intros Hc Hb srcPath.
  assert (Hdec : getDojoSource env d st =
                 (ensureDir env srcPath;; fail (ConfigError (configErrorMsg "" ""))) st).
  { unfold getDojoSource. rewrite Hc, Hb. reflexivity. }
  split; [exact Hdec|]. split; [|split].
  - intros Hpre. rewrite Hdec. unfold bind at 1.
    assert (Hok : fst (ensureDir env srcPath st) = Ok tt).
    { destruct Hpre as [Hp|Hm].
      - rewrite ensureDir_present by exact Hp. reflexivity.
      - unfold ensureDir, bind, Stat. simpl.
        destruct (fs_lookup (fs st) srcPath); [reflexivity|]. exact Hm. }
    destruct (ensureDir env srcPath st) as [[u|e| |c] st1]; simpl in Hok;
      try discriminate. reflexivity.
  - intros e He. rewrite Hdec in He. unfold bind in He.
    destruct (ensureDir env srcPath st) as [[u|e'| |c] st1] eqn:E; simpl in He;
      try discriminate.
    + left. congruence.
    + right. injection He as <-. apply (ensureDir_err env srcPath st). rewrite E. reflexivity.
  - rewrite Hdec. apply grows_bind.
    + apply grows_ensureDir. reflexivity.
    + intros _. apply resp_fail. exact (grows_refl _).
Qed.

Lemma getDojoSource_empty_selectors_witness :
  SourceCommit (conf (installCfg true "" "")) = "" /\
  SourceBranch (conf (installCfg true "" "")) = "" /\
  fst (getDojoSource (testEnv (fun _ => true) release_2_30_0) (installCfg true "" "") emptySt)
  = Err (ConfigError (configErrorMsg "" "")).
Proof.
  split; [reflexivity|]. split; [reflexivity|].
  apply (getDojoSource_empty_selectors (testEnv (fun _ => true) release_2_30_0)
           (installCfg true "" "") emptySt eq_refl eq_refl).
  right. vm_compute. reflexivity.
Defined.

(** C3: when a file is already at [Root + "/dojo-v" + Version + ".tar.gz"],
    [getDojoRelease] makes sure [Root] exists and goes straight to
    [extractRelease] on that file (straight to it when [Root] is there, as
    it is whenever the file is below it), and makes no network request. *)
Theorem getDojoRelease_existing_tarball (env : Env) (d : DDConfig) (st : St) :
  present (fs st) (tarballPath (conf d)) ->
  getDojoRelease env d st =
    (ensureDir env (Root (conf d));; extractRelease env (conf d) (tarballPath (conf d))) st /\
  (present (fs st) (Root (conf d)) ->
     getDojoRelease env d st = extractRelease env (conf d) (tarballPath (conf d)) st) /\
  grows (fun e => is_network e = false) st (snd (getDojoRelease env d st)).
Proof.
  intros Ht.
  assert (Hdec : getDojoRelease env d st =
    (ensureDir env (Root (conf d));; extractRelease env (conf d) (tarballPath (conf d))) st).
  { unfold getDojoRelease. apply ensureDir_then_present. exact Ht. }
  split; [exact Hdec|]. split.
  - intros Hr. rewrite Hdec. unfold bind at 1. rewrite ensureDir_present by exact Hr.
    reflexivity.
  - rewrite Hdec. apply grows_bind.
    + apply grows_ensureDir. reflexivity.
    + intros _. apply grows_extractRelease; reflexivity.
Qed.

Lemma getDojoRelease_existing_tarball_witness :
  present (fs tarballSt) (tarballPath (conf (installCfg false "" ""))) /\
  getDojoRelease (testEnv (fun _ => true) release_2_30_0) (installCfg false "" "") tarballSt
  = extractRelease (testEnv (fun _ => true) release_2_30_0) (conf (installCfg false "" ""))
      (tarballPath (conf (installCfg false "" ""))) tarballSt.
Proof.
  split; [vm_compute; discriminate|].
  apply (getDojoRelease_existing_tarball (testEnv (fun _ => true) release_2_30_0)
           (installCfg false "" "") tarballSt); vm_compute; discriminate.
Defined.

(** C4: after a successful first run, a second [getDojoRelease] with the
    same configuration finds the tarball, extracts it again (a second
    [django-DefectDojo-2.30.0] tree appears next to the renamed one) and
    fails: [os.Rename] refuses the existing source directory. *)
Theorem getDojoRelease_rerun_fails :
  let env := testEnv (fun _ => true) release_2_30_0 in
  let d := installCfg false "" "" in
  let (r1, st1) := getDojoRelease env d emptySt in
  let (r2, st2) := getDojoRelease env d st1 in
  r1 = Ok tt /\
  fs_lookup (fs st1) "/opt/dojo/django-DefectDojo" = Some NDir /\
  r2 = Err (LinkError "rename" "/opt/dojo/django-DefectDojo-2.30.0"
                      "/opt/dojo/django-DefectDojo" EEXIST) /\
  fs_lookup (fs st2) "/opt/dojo/django-DefectDojo-2.30.0" = Some NDir /\
  fs_lookup (fs st2) "/opt/dojo/django-DefectDojo" = Some NDir /\
  filter is_network (trace st2) = filter is_network (trace st1).
Proof. vm_compute. repeat split. Qed.

(** C5, counterexample: a release tree named [<app>-v<version>] is not
    the one [extractRelease] renames: it stays in place, the source
    directory is not created and the rename fails. *)
Lemma extractRelease_v_named_dir_not_renamed :
  let (r, st) := getDojoRelease (testEnv (fun _ => true) release_v2_30_0)
                   (installCfg false "" "") tarballSt in
  r = Err (LinkError "rename" "/opt/dojo/django-DefectDojo-2.30.0"
                     "/opt/dojo/django-DefectDojo" ENOENT) /\
  fs_lookup (fs st) "/opt/dojo/django-DefectDojo-v2.30.0" = Some NDir /\
  fs_lookup (fs st) "/opt/dojo/django-DefectDojo" = None.
Proof. vm_compute. repeat split. Qed.

(** C5 (amended): after opening the tarball and expanding it under
    [Root], [extractRelease] renames [Root/django-DefectDojo-<Version>]
    (no [v] before the version) to [Root/Source], and what that rename
    returns, a failure included, is what [extractRelease] returns. *)
Theorem extractRelease_renames_unversioned (env : Env) (c : Install) (t : string)
  (st st1 : St) :
  (tb <- Open env t;; untar env (Root c) tb) st = (Ok tt, st1) ->
  let oldPath := FilePath.Join (Root c) ("django-DefectDojo-" ++ Version c) in
  let newPath := FilePath.Join (Root c) (Source c) in
  extractRelease env c t st =
    Rename oldPath newPath (mkSt (fs st1) (app (trace st1) [EvRename oldPath newPath])) /\
  (forall e, fst (Rename oldPath newPath (mkSt (fs st1) (trace st1))) = Err e ->
     fst (extractRelease env c t st) = Err e).
Proof.
  intros H oldPath newPath.
  assert (Hdec : extractRelease env c t st =
    Rename oldPath newPath (mkSt (fs st1) (app (trace st1) [EvRename oldPath newPath]))).
  { unfold extractRelease. unfold bind at 1. unfold bind at 1 in H.
    destruct (Open env t st) as [[tb|e| |k] st0]; simpl in H; try discriminate.
    unfold bind at 1. unfold bind in H.
    destruct (untar env (Root c) tb st0) as [[u|e| |k] st1']; simpl in H; try discriminate.
    injection H as _ Hs. subst st1. reflexivity. }
  split; [exact Hdec|].
  intros e He. rewrite Hdec. rewrite <- He. apply Rename_result_fs.
Qed.

Lemma extractRelease_renames_unversioned_witness :
  let env := testEnv (fun _ => true) release_2_30_0 in
  let c := conf (installCfg false "" "") in
  let st1 := snd ((tb <- Open env (tarballPath c);; untar env (Root c) tb) tarballSt) in
  (tb <- Open env (tarballPath c);; untar env (Root c) tb) tarballSt = (Ok tt, st1) /\
  extractRelease env c (tarballPath c) tarballSt =
    Rename "/opt/dojo/django-DefectDojo-2.30.0" "/opt/dojo/django-DefectDojo"
      (mkSt (fs st1) (app (trace st1)
        [EvRename "/opt/dojo/django-DefectDojo-2.30.0" "/opt/dojo/django-DefectDojo"])).
Proof.
  intros env c st1.
  assert (H : (tb <- Open env (tarballPath c);; untar env (Root c) tb) tarballSt = (Ok tt, st1))
    by (vm_compute; reflexivity).
  split; [exact H|].
  exact (proj1 (extractRelease_renames_unversioned env c (tarballPath c) tarballSt st1 H)).
Defined.

(** C6, counterexample: with two spaces after [Python] the second
    whitespace-separated token is [3.11.4], yet the check rejects the
    output: the code splits at every single space. *)
Lemma checkPythonVersion_double_space :
  Python.checkPythonVersion true (Some ("Python  3.11.4" ++ String "010"%char "")) =
    Python.Returns false /\
  SpecPython.spec_accepts ("Python  3.11.4" ++ String "010"%char "") = true.
Proof. split; reflexivity. Qed.

(** C6 (amended): the check accepts [Python 3.11.4] and rejects
    [Python 3.10.9]: it splits the first line of the output at single
    spaces and tests whether the second field ([line[1]]) has prefix
    [3.11]; for an output [Python <v>] followed by a newline, with no
    space in [v], that is the prefix test on [v]. *)
Theorem checkPythonVersion_space_field :
  Python.checkPythonVersion true (Some ("Python 3.11.4" ++ String "010"%char "")) =
    Python.Returns true /\
  Python.checkPythonVersion true (Some ("Python 3.10.9" ++ String "010"%char "")) =
    Python.Returns false /\
  (forall v rest,
     PythonProofs.has_char " "%char v = false -> PythonProofs.has_char "010"%char v = false ->
     Python.checkPythonVersion true (Some ("Python " ++ v ++ String "010"%char rest)) =
       Python.Returns (GoStr.HasPrefix v "3.11")).
Proof.
  split; [reflexivity|]. split; [reflexivity|].
  intros v rest Hs Hn. simpl. exact (PythonProofs.parse_version_python_line v rest Hs Hn).
Qed.

Lemma checkPythonVersion_space_field_witness :
  PythonProofs.has_char " "%char "3.11.9" = false /\
  PythonProofs.has_char "010"%char "3.11.9" = false /\
  Python.checkPythonVersion true (Some ("Python " ++ "3.11.9" ++ String "010"%char "")) =
    Python.Returns true.
Proof.
  split; [reflexivity|]. split; [reflexivity|].
  exact (proj2 (proj2 checkPythonVersion_space_field) "3.11.9" "" eq_refl eq_refl).
Defined.

(** C7: for an output whose first line has no space, [line] has one
    field and [line[1]] is out of range: the check panics instead of
    returning false. *)
Theorem checkPythonVersion_no_space_panics :
  Python.checkPythonVersion true (Some ("Python3.11.4" ++ String "010"%char "")) = Python.Panics /\
  Python.parse_version "Python3.11.4" = Python.Panics.
Proof. split; reflexivity. Qed.

(** C8: the distro dispatch of [bootstrapInstall] looks at the lower-cased
    family name only, so [Ubuntu], [ubuntu] and [UBUNTU] all load the
    Ubuntu command table; a family that lower-cases to neither [ubuntu]
    nor [rhel] is reported as unsupported and the process exits with
    status 1 before any command runs. *)
Theorem bootstrapInstall_distro_dispatch
  (GetUbuntu GetRHEL : string -> option (list Bootstrap.Command))
  (CmdsForTarget : list Bootstrap.Command -> string -> option (list Bootstrap.Command))
  (succeeds : Bootstrap.Command -> bool) :
  let boot := Bootstrap.bootstrapInstall GetUbuntu GetRHEL CmdsForTarget succeeds in
  (forall s1 s2 i, GoStr.ToLower s1 = GoStr.ToLower s2 ->
     boot (Bootstrap.mkTarget s1 i) = boot (Bootstrap.mkTarget s2 i)) /\
  (forall i, Forall (fun s => hd_error (boot (Bootstrap.mkTarget s i)) =
                              Some (Bootstrap.EvGetUbuntu i))
                    ["Ubuntu"; "ubuntu"; "UBUNTU"]) /\
  (forall t, GoStr.ToLower (Bootstrap.distro t) = "rhel" ->
     hd_error (boot t) = Some (Bootstrap.EvGetRHEL (Bootstrap.id t))) /\
  (forall t, GoStr.ToLower (Bootstrap.distro t) <> "ubuntu" ->
     GoStr.ToLower (Bootstrap.distro t) <> "rhel" ->
     boot t = [Bootstrap.EvUnsupported (Bootstrap.id t); Bootstrap.EvExit 1]).
Proof.
  intros boot. split; [|split; [|split]].
  - intros s1 s2 i H. apply BootstrapProofs.boot_lower_only. exact H.
  - intros i. repeat constructor; apply BootstrapProofs.boot_ubuntu; reflexivity.
  - intros t H. apply BootstrapProofs.boot_rhel. exact H.
  - intros t Hu Hr. apply BootstrapProofs.boot_unsupported; assumption.
Qed.

Lemma bootstrapInstall_distro_dispatch_witness :
  GoStr.ToLower "Debian" <> "ubuntu" /\ GoStr.ToLower "Debian" <> "rhel" /\
  Bootstrap.bootstrapInstall (fun _ => None) (fun _ => None) (fun _ _ => None) (fun _ => true)
    (Bootstrap.mkTarget "Debian" "12") =
  [Bootstrap.EvUnsupported "12"; Bootstrap.EvExit 1].
Proof.
  assert (Hu : GoStr.ToLower "Debian" <> "ubuntu") by (vm_compute; discriminate).
  assert (Hr : GoStr.ToLower "Debian" <> "rhel") by (vm_compute; discriminate).
  split; [exact Hu|]. split; [exact Hr|].
  destruct (bootstrapInstall_distro_dispatch (fun _ => None) (fun _ => None)
              (fun _ _ => None) (fun _ => true)) as (_ & _ & _ & H).
  exact (H (Bootstrap.mkTarget "Debian" "12") Hu Hr).
Defined.

(** C9: with both selectors empty and the source directory missing,
    [getDojoSource] creates it with [MkdirAll] before it finds the
    contradiction, and returns the configuration error in the state
    [MkdirAll] left: the directory now exists and is not removed. *)
Theorem getDojoSource_config_error_after_mkdir (env : Env) (d : DDConfig) (st : St) :
  SourceCommit (conf d) = "" -> SourceBranch (conf d) = "" ->
  let srcPath := FilePath.Join (Root (conf d)) (Source (conf d)) in
  fs_lookup (fs st) srcPath = None ->
  fst (MkdirAll env srcPath st) = Ok tt ->
  getDojoSource env d st =
    (Err (ConfigError (configErrorMsg "" "")), snd (MkdirAll env srcPath st)) /\
  present (fs (snd (getDojoSource env d st))) srcPath /\
  In (EvMkdirAll srcPath) (trace (snd (getDojoSource env d st))).
Proof.
  intros Hc Hb srcPath Habs Hok.
  assert (Hdec : getDojoSource env d st =
    (Err (ConfigError (configErrorMsg "" "")), snd (MkdirAll env srcPath st))).
  { unfold getDojoSource. rewrite Hc, Hb. unfold bind at 1, ensureDir.
    unfold bind at 1, Stat. fold srcPath. rewrite Habs. cbn beta iota.
    destruct (MkdirAll env srcPath st) as [r st1]. simpl in Hok. subst r. reflexivity. }
  rewrite Hdec. cbn [snd]. split; [reflexivity|]. split.
  - destruct (MkdirAll env srcPath st) as [r st1] eqn:E. simpl in Hok. subst r.
    exact (MkdirAll_ok env srcPath st st1 E).
  - apply MkdirAll_emits.
Qed.

Lemma getDojoSource_config_error_after_mkdir_witness :
  fs_lookup (fs emptySt) (FilePath.Join "/opt/dojo" "django-DefectDojo") = None /\
  fst (MkdirAll (testEnv (fun _ => true) release_2_30_0)
         (FilePath.Join "/opt/dojo" "django-DefectDojo") emptySt) = Ok tt /\
  present (fs (snd (getDojoSource (testEnv (fun _ => true) release_2_30_0)
                      (installCfg true "" "") emptySt)))
          (FilePath.Join "/opt/dojo" "django-DefectDojo").
Proof.
  assert (Habs : fs_lookup (fs emptySt) (FilePath.Join "/opt/dojo" "django-DefectDojo") = None)
    by (vm_compute; reflexivity).
  assert (Hok : fst (MkdirAll (testEnv (fun _ => true) release_2_30_0)
                       (FilePath.Join "/opt/dojo" "django-DefectDojo") emptySt) = Ok tt)
    by (vm_compute; reflexivity).
  split; [exact Habs|]. split; [exact Hok|].
  destruct (getDojoSource_config_error_after_mkdir (testEnv (fun _ => true) release_2_30_0)
              (installCfg true "" "") emptySt eq_refl eq_refl Habs Hok) as (_ & H & _).
  exact H.
Defined.

(** C10: in the commit path the error of [repo.Worktree()] is dropped:
    the outcome is the one of a run where [Worktree] reported no error.
    The checkout is called on the returned value whatever it is; on a nil
    worktree it panics, so the run ends in a panic, not an error. *)
Theorem getDojoSource_worktree_error_ignored (env : Env) (d : DDConfig) (st : St)
  (wk : bool) (e : option goerr) :
  (0 < String.length (SourceCommit (conf d)))%nat -> repo_worktree env = (wk, e) ->
  let srcPath := FilePath.Join (Root (conf d)) (Source (conf d)) in
  getDojoSource env d st = getDojoSource (with_worktree env (wk, None)) d st /\
  (forall st1, ensureDir env srcPath st = (Ok tt, st1) ->
     clone_ok env (cloneURL d) srcPath = true ->
     fst (getDojoSource env d st) =
       if wk then
         if checkout_ok env (NewHash (SourceCommit (conf d))) then Ok tt
         else Err (GitError "checkout")
       else Panic).
Proof.
  intros Hc Hw srcPath. apply Nat.ltb_lt in Hc. split.
  - unfold getDojoSource, commitPath. rewrite Hc, Hw. reflexivity.
  - intros st1 E Hcl. unfold getDojoSource. rewrite Hc. fold srcPath.
    unfold bind at 1. rewrite E.
    unfold commitPath, PlainClone, emit, bind, modify_fs. simpl. rewrite Hcl. simpl.
    rewrite Hw. destruct wk; simpl; [|reflexivity].
    destruct (checkout_ok env (NewHash (SourceCommit (conf d)))); reflexivity.
Qed.

Lemma getDojoSource_worktree_error_ignored_witness :
  let env := with_worktree (testEnv (fun _ => true) release_2_30_0)
                           (false, Some (GitError "repository is bare")) in
  let d := installCfg true "2c5e34e3a6f0d2d4c0a6b7e1f9d8c3b2a1e0f9d8" "" in
  (0 < String.length (SourceCommit (conf d)))%nat /\
  getDojoSource env d emptySt =
    getDojoSource (with_worktree env (false, None)) d emptySt.
Proof.
  intros env d.
  assert (Hc : (0 < String.length (SourceCommit (conf d)))%nat) by (vm_compute; lia).
  split; [exact Hc|].
  exact (proj1 (getDojoSource_worktree_error_ignored env d emptySt false
                  (Some (GitError "repository is bare")) Hc eq_refl)).
Defined.

End Claims.

(** * Further properties of the code *)

Module PythonExtras.

Import Python PythonProofs.
Local Open Scope string_scope.

Lemma split_newline_cons (rest : string) :
  GoStr.split "010"%char (String "010"%char rest) = "" :: GoStr.split "010"%char rest.
Proof. reflexivity. Qed.

(** The version check reads the first line of the output only: whatever
    follows the first newline never changes the result. *)
Theorem parse_version_first_line_only (l rest : string) :
  has_char "010"%char l = false ->
  parse_version (l ++ String "010"%char rest) = parse_version l.
Proof.
  intros Hnl. unfold parse_version.
  rewrite (split_app_nosep _ l _ Hnl), split_newline_cons, (split_nosep _ l Hnl).
  rewrite append_nil_r'. reflexivity.
Qed.

Lemma parse_version_first_line_only_witness :
  has_char "010"%char "Python 3.12.1" = false /\
  parse_version ("Python 3.12.1" ++ String "010"%char "Python 3.11.0") =
  parse_version "Python 3.12.1".
Proof.
  split; [reflexivity|].
  apply parse_version_first_line_only. reflexivity.
Defined.

(** An output whose first line has no space, the empty output included,
    has no [line[1]]: the check panics (index out of range), whatever
    lines follow. *)
Theorem parse_version_no_space_first_line (l rest : string) :
  has_char " "%char l = false -> has_char "010"%char l = false ->
  parse_version l = Panics /\ parse_version (l ++ String "010"%char rest) = Panics /\
  checkPythonVersion true (Some (l ++ String "010"%char rest)) = Panics.
Proof.
  intros Hsp Hnl.
  assert (H : parse_version l = Panics).
  { unfold parse_version. rewrite (split_nosep _ l Hnl), (split_nosep _ l Hsp).
    reflexivity. }
  assert (H' : parse_version (l ++ String "010"%char rest) = Panics).
  { unfold parse_version.
    rewrite (split_app_nosep _ l _ Hnl), split_newline_cons, append_nil_r'.
    rewrite (split_nosep _ l Hsp). reflexivity. }
  split; [exact H|]. split; [exact H'|]. exact H'.
Qed.

Lemma parse_version_no_space_first_line_witness :
  parse_version "" = Panics /\ parse_version ("" ++ String "010"%char "Python 3.11.2") = Panics /\
  checkPythonVersion true (Some ("" ++ String "010"%char "Python 3.11.2")) = Panics.
Proof. apply parse_version_no_space_first_line; reflexivity. Defined.

(** [validPython]: without [python3] on the search path, or when the
    interpreter cannot be run, the installer exits with status 1 whatever
    else holds; for an output whose first line is [Python <v>] it
    continues exactly when [v] starts with [3.11] and otherwise exits
    with status 1. *)
Theorem validPython_outcomes :
  (forall run, validPython false run = VExit 1) /\
  validPython true None = VExit 1 /\
  (forall v rest,
     has_char " "%char v = false -> has_char "010"%char v = false ->
     validPython true (Some ("Python " ++ v ++ String "010"%char rest)) =
     if GoStr.HasPrefix v "3.11" then Continue else VExit 1).
Proof.
  split; [reflexivity|]. split; [reflexivity|].
  intros v rest Hsp Hnl. unfold validPython, checkPythonVersion. simpl negb. cbv iota.
  rewrite (parse_version_python_line v rest Hsp Hnl).
  destruct (GoStr.HasPrefix v "3.11"); reflexivity.
Qed.

Lemma validPython_outcomes_witness :
  validPython true (Some ("Python " ++ "3.10.12" ++ String "010"%char "")) = VExit 1.
Proof.
  destruct validPython_outcomes as (_ & _ & H).
  exact (H "3.10.12" "" eq_refl eq_refl).
Defined.

End PythonExtras.

Module BootstrapExtras.

Import Bootstrap.
Local Open Scope string_scope.
Local Open Scope list_scope.

Section Loop.

Variable succeeds : Command -> bool.


End Loop.

(** When the distro's command table cannot be loaded or retrieved,
    [bootstrapInstall] exits with status 1 and runs no command. *)
Theorem bootstrapInstall_table_errors
  (GetUbuntu GetRHEL : string -> option (list Command))
  (CmdsForTarget : list Command -> string -> option (list Command))
  (succeeds : Command -> bool) (t : targetOS) :
  let boot := bootstrapInstall GetUbuntu GetRHEL CmdsForTarget succeeds in
  (GoStr.ToLower (distro t) = "ubuntu" -> GetUbuntu (id t) = None ->
     boot t = [EvGetUbuntu (id t); EvExit 1]) /\
  (GoStr.ToLower (distro t) = "rhel" -> GetRHEL (id t) = None ->
     boot t = [EvGetRHEL (id t); EvExit 1]) /\
  (forall pkg, GoStr.ToLower (distro t) = "ubuntu" -> GetUbuntu (id t) = Some pkg ->
     CmdsForTarget pkg (id t) = None ->
     boot t = [EvGetUbuntu (id t); EvCmdsForTarget (id t); EvExit 1]) /\
  (forall pkg, GoStr.ToLower (distro t) = "rhel" -> GetRHEL (id t) = Some pkg ->
     CmdsForTarget pkg (id t) = None ->
     boot t = [EvGetRHEL (id t); EvCmdsForTarget (id t); EvExit 1]).
Proof.
  intros boot. subst boot. unfold bootstrapInstall.
  split; [|split; [|split]].
  - intros Hd Hg. rewrite Hd, Hg. reflexivity.
  - intros Hd Hg. rewrite Hd, Hg. reflexivity.
  - intros pkg Hd Hg Hc. rewrite Hd, Hg. simpl. rewrite Hc. reflexivity.
  - intros pkg Hd Hg Hc. rewrite Hd, Hg. simpl. rewrite Hc. reflexivity.
Qed.

Lemma bootstrapInstall_table_errors_witness :
  bootstrapInstall (fun _ => None) (fun _ => None) (fun _ _ => None) (fun _ => true)
    (mkTarget "Ubuntu" "24.04") = [EvGetUbuntu "24.04"; EvExit 1].
Proof.
  destruct (bootstrapInstall_table_errors (fun _ => None) (fun _ => None)
              (fun _ _ => None) (fun _ => true) (mkTarget "Ubuntu" "24.04")) as (H & _).
  exact (H eq_refl eq_refl).
Defined.



End BootstrapExtras.

Module AcquireExtras.

Import Acquire Scenario AcquireProofs.
Local Open Scope string_scope.

(** ** Helper lemmas *)

Lemma grows_downloadRelease P env d tb :
  P (EvHttpGet (releaseURL d ++ Version (conf d) ++ ".tar.gz")) -> P (EvCreate tb) ->
  P (EvOpen tb) -> P (EvUntar (Root (conf d))) -> (forall o n, P (EvRename o n)) ->
  respects (grows P) (downloadRelease env d tb).
Proof.
  intros Hg Hc Ho Hu Hr. unfold downloadRelease, Create, Copy. cbv zeta.
  grows_solve; auto using grows_extractRelease.
Qed.

Lemma grows_getDojoRelease P env d :
  P (EvMkdirAll (Root (conf d))) ->
  P (EvHttpGet (releaseURL d ++ Version (conf d) ++ ".tar.gz")) ->
  P (EvCreate (tarballPath (conf d))) -> P (EvOpen (tarballPath (conf d))) ->
  P (EvUntar (Root (conf d))) -> (forall o n, P (EvRename o n)) ->
  respects (grows P) (getDojoRelease env d).
Proof.
  intros Hm Hg Hc Ho Hu Hr. unfold getDojoRelease. cbv zeta.
  grows_solve; auto using grows_ensureDir, grows_extractRelease, grows_downloadRelease.
Qed.

Lemma grows_getDojoSource P env d :
  let srcPath := FilePath.Join (Root (conf d)) (Source (conf d)) in
  P (EvMkdirAll srcPath) -> P (EvClone (cloneURL d) srcPath) -> P EvWorktree ->
  (forall h, P (EvCheckout h)) ->
  P (EvCloneBranch (cloneURL d) srcPath ("refs/heads/" ++ SourceBranch (conf d))) ->
  respects (grows P) (getDojoSource env d).
Proof.
  intros srcPath Hm Hc Hw Hk Hb. unfold getDojoSource, branchPath, PlainClone. cbv zeta.
  grows_solve; auto using grows_ensureDir, grows_commitPath.
Qed.

Lemma resp_exitOnError {A} (R : St -> St -> Prop) (m : M A) :
  respects R m -> respects R (exitOnError m).
Proof.
  intros Hm st. unfold exitOnError. specialize (Hm st).
  destruct (m st) as [[a|e| |c] st']; exact Hm.
Qed.

(** With [Root] in place and no tarball, [getDojoRelease] goes to the
    download. *)
Lemma getDojoRelease_absent env d st :
  present (fs st) (Root (conf d)) -> fs_lookup (fs st) (tarballPath (conf d)) = None ->
  getDojoRelease env d st = downloadRelease env d (tarballPath (conf d)) st.
Proof.
  intros Hr Ht. unfold getDojoRelease. cbv zeta. unfold bind at 1.
  rewrite (ensureDir_present env _ st Hr). cbv beta iota.
  unfold bind, Stat. cbv beta iota. rewrite Ht. reflexivity.
Qed.


Lemma substring_len_0 (s : string) : substring (String.length s) 0 s = "".
Proof. induction s; simpl; auto. Qed.

Lemma rebase_self (o n : string) : rebase o n o = n.
Proof.
  unfold rebase. rewrite Nat.sub_diag, substring_len_0. apply PythonProofs.append_nil_r'.
Qed.

Lemma lookup_In (f : fsys) (k : string) (v : node) : lookup f k = Some v -> In (k, v) f.
Proof.
  induction f as [|[k' n] f IH]; simpl; [discriminate|].
  destruct (String.eqb_spec k k') as [->|_]; intros H.
  - injection H as ->. left. reflexivity.
  - right. auto.
Qed.

Lemma In_lookup (f : fsys) (k : string) (v : node) : In (k, v) f -> lookup f k <> None.
Proof.
  induction f as [|[k' n] f IH]; simpl; [intros []|].
  destruct (String.eqb_spec k k') as [_|Hne]; [discriminate|].
  intros [E|H]; [injection E as -> _; congruence|auto].
Qed.

(** The entry at [o] ends up at [n] when the tree moves, unless [o] was
    inside the tree at [n] that the move replaces. *)
Lemma move_tree_target (f : fsys) (o n : string) (v : node) :
  lookup f o = Some v -> under n o = false -> lookup (move_tree f o n) n <> None.
Proof.
  intros Hl Hu. apply (In_lookup _ _ v). unfold move_tree.
  apply in_map_iff. exists (o, v). split.
  - cbn [fst snd]. unfold under at 1. rewrite String.eqb_refl. simpl.
    rewrite rebase_self. reflexivity.
  - apply filter_In. split; [apply lookup_In; exact Hl|]. cbn [fst]. rewrite Hu. reflexivity.
Qed.

Lemma present_move_tree (f : fsys) (oldp newp : string) (v : node) :
  key oldp <> "/" -> under (key newp) (key oldp) = false -> fs_lookup f oldp = Some v ->
  present (move_tree f (key oldp) (key newp)) newp.
Proof.
  intros Hr Hu Ho. unfold fs_lookup in Ho. apply String.eqb_neq in Hr. rewrite Hr in Ho.
  unfold present, fs_lookup. destruct (String.eqb (key newp) "/"); [discriminate|].
  exact (move_tree_target f _ _ v Ho Hu).
Qed.

(** A successful [os.Rename] leaves something at [newp]. *)
Lemma Rename_ok_present (oldp newp : string) (st : St) :
  key oldp <> "/" -> under (key newp) (key oldp) = false ->
  fst (Rename oldp newp st) = Ok tt -> present (fs (snd (Rename oldp newp st))) newp.
Proof.
  intros Hr Hu. pose proof Hu as Hu'. unfold under in Hu'.
  apply orb_false_iff in Hu' as [Heq _].
  unfold Rename, bind, get_fs. cbv beta iota zeta.
  destruct (fs_lookup (fs st) newp) as [[cn|]|] eqn:En,
           (fs_lookup (fs st) oldp) as [[co|]|] eqn:Eo;
    cbv iota; unfold fail, ret, put_fs;
    rewrite ?Heq, ?orb_true_r;
    repeat match goal with |- context [if ?b then _ else _] => destruct b end;
    cbn [fst snd fs]; intros H; try discriminate H;
    first [ eapply present_move_tree; eassumption
          | unfold present; rewrite En; discriminate ].
Qed.

(** ** Release download *)

(** The only network request [getDojoRelease] can make is the GET of
    [releaseURL ++ Version ++ ".tar.gz"]; it never clones. *)
Theorem getDojoRelease_only_release_get (env : Env) (d : DDConfig) (st : St) :
  grows (fun e => is_network e = true ->
                  e = EvHttpGet (releaseURL d ++ Version (conf d) ++ ".tar.gz"))
        st (snd (getDojoRelease env d st)).
Proof.
  apply grows_getDojoRelease; simpl; intros; first [reflexivity | discriminate].
Qed.

(** When the download request fails, [getDojoRelease] returns the error
    and creates no tarball: the filesystem is left as it was. *)
Theorem getDojoRelease_http_error_no_file (env : Env) (d : DDConfig) (st : St) :
  present (fs st) (Root (conf d)) -> fs_lookup (fs st) (tarballPath (conf d)) = None ->
  http_get env (releaseURL d ++ Version (conf d) ++ ".tar.gz") = None ->
  getDojoRelease env d st =
    (Err (NetError (releaseURL d ++ Version (conf d) ++ ".tar.gz")),
     mkSt (fs st) (app (trace st) [EvHttpGet (releaseURL d ++ Version (conf d) ++ ".tar.gz")])).
Proof.
  intros Hr Ht Hh. rewrite (getDojoRelease_absent env d st Hr Ht).
  unfold downloadRelease. cbv zeta. unfold bind at 1, emit. cbv beta iota.
  rewrite Hh. reflexivity.
Qed.

Lemma getDojoRelease_http_error_no_file_witness :
  let env := with_download (testEnv (fun _ => true) release_2_30_0)
                           (fun _ => None) (fun b => (b, true)) true in
  let d := installCfg false "" "" in
  getDojoRelease env d rootSt =
    (Err (NetError (releaseURL d ++ Version (conf d) ++ ".tar.gz")),
     mkSt (fs rootSt)
          (app (trace rootSt) [EvHttpGet (releaseURL d ++ Version (conf d) ++ ".tar.gz")])).
Proof.
  intros env d.
  apply getDojoRelease_http_error_no_file;
    [vm_compute; discriminate | vm_compute; reflexivity | reflexivity].
Defined.







(** ** Source checkout *)

(** [getDojoSource] contacts [cloneURL] only, and only to clone into
    [Root/Source]: a full clone (commit path) or the single-branch clone of
    [refs/heads/<SourceBranch>]; it never downloads a release. *)
Theorem getDojoSource_only_clone (env : Env) (d : DDConfig) (st : St) :
  let srcPath := FilePath.Join (Root (conf d)) (Source (conf d)) in
  grows (fun e => is_network e = true ->
                  e = EvClone (cloneURL d) srcPath \/
                  e = EvCloneBranch (cloneURL d) srcPath ("refs/heads/" ++ SourceBranch (conf d)))
        st (snd (getDojoSource env d st)).
Proof.
  intros srcPath. apply grows_getDojoSource; simpl; intros; first [discriminate | auto].
Qed.

(** The branch path: with no commit and a non-empty branch, once the
    source directory is there [getDojoSource] makes exactly one request,
    the single-branch clone of [refs/heads/<SourceBranch>], and no
    checkout; a failed clone is returned as the result. *)
Theorem getDojoSource_branch_single_clone (env : Env) (d : DDConfig) (st st1 : St) :
  let srcPath := FilePath.Join (Root (conf d)) (Source (conf d)) in
  let ref := "refs/heads/" ++ SourceBranch (conf d) in
  SourceCommit (conf d) = "" -> SourceBranch (conf d) <> "" ->
  ensureDir env srcPath st = (Ok tt, st1) ->
  getDojoSource env d st =
    if branch_clone_ok env (cloneURL d) srcPath ref
    then (Ok tt, mkSt (fs_set (fs st1) (FilePath.Join srcPath ".git") NDir)
                      (app (trace st1) [EvCloneBranch (cloneURL d) srcPath ref]))
    else (Err (GitError "clone"),
          mkSt (fs st1) (app (trace st1) [EvCloneBranch (cloneURL d) srcPath ref])).
Proof.
  intros srcPath ref Hc Hb E.
  assert (Hl : (String.length (SourceBranch (conf d)) =? 0)%nat = false).
  { destruct (SourceBranch (conf d)); [congruence|reflexivity]. }
  unfold getDojoSource. cbv zeta. fold srcPath.
  unfold bind at 1. rewrite E. cbv beta iota.
  rewrite Hc. change ((0 <? String.length "")%nat) with false. cbv iota.
  rewrite Hl. cbv iota.
  unfold branchPath, PlainClone, bind, emit, modify_fs, fail. cbv beta iota zeta.
  fold ref. destruct (branch_clone_ok env (cloneURL d) srcPath ref); reflexivity.
Qed.

Lemma getDojoSource_branch_single_clone_witness :
  let env := testEnv (fun _ => true) release_2_30_0 in
  let d := installCfg true "" "dev" in
  let srcPath := FilePath.Join (Root (conf d)) (Source (conf d)) in
  fst (getDojoSource env d emptySt) = Ok tt /\
  trace (snd (getDojoSource env d emptySt)) =
    app (trace (snd (ensureDir env srcPath emptySt)))
        [EvCloneBranch (cloneURL d) srcPath ("refs/heads/" ++ "dev")].
Proof.
  intros env d srcPath.
  rewrite (getDojoSource_branch_single_clone env d emptySt (snd (ensureDir env srcPath emptySt)));
    [split; reflexivity | reflexivity | discriminate | vm_compute; reflexivity].
Defined.

(** A source directory that cannot be created ends [getDojoSource] at
    once: the [MkdirAll] error is returned, whatever the commit and branch
    settings, and no clone is attempted. *)
Theorem getDojoSource_mkdir_error_first (env : Env) (d : DDConfig) (st : St) (e : goerr) :
  let srcPath := FilePath.Join (Root (conf d)) (Source (conf d)) in
  fst (ensureDir env srcPath st) = Err e ->
  getDojoSource env d st = ensureDir env srcPath st /\
  (exists a en, e = PathError "mkdir" a en) /\
  grows (fun ev => is_network ev = false) st (snd (getDojoSource env d st)).
Proof.
  intros srcPath H.
  assert (E : getDojoSource env d st = ensureDir env srcPath st).
  { unfold getDojoSource. cbv zeta. fold srcPath. unfold bind at 1.
    destruct (ensureDir env srcPath st) as [r st1]. cbn [fst] in H. subst r. reflexivity. }
  split; [exact E|]. split; [exact (ensureDir_err env srcPath st e H)|].
  rewrite E. apply grows_ensureDir. reflexivity.
Qed.

Lemma getDojoSource_mkdir_error_first_witness :
  let env := testEnv (fun p => negb (String.eqb p "/opt/dojo/django-DefectDojo")) release_2_30_0 in
  let d := installCfg true "2c5e34e3a6f0d2d4c0a6b7e1f9d8c3b2a1e0f9d8" "" in
  getDojoSource env d emptySt = ensureDir env (FilePath.Join "/opt/dojo" "django-DefectDojo") emptySt.
Proof.
  intros env d.
  exact (proj1 (getDojoSource_mkdir_error_first env d emptySt
                  (PathError "mkdir" "/opt/dojo/django-DefectDojo" EACCES)
                  ltac:(vm_compute; reflexivity))).
Defined.

(** ** Extraction *)

(** A missing tarball: [extractRelease] returns the [os.Open] error and
    neither extracts nor renames anything. *)
Theorem extractRelease_missing_tarball (env : Env) (c : Install) (t : string) (st : St) :
  fs_lookup (fs st) t = None ->
  extractRelease env c t st =
    (Err (PathError "open" t ENOENT), mkSt (fs st) (app (trace st) [EvOpen t])).
Proof.
  intros H. unfold extractRelease, Open, bind, emit, get_fs, fail.
  cbv beta iota zeta. cbn [fs trace]. rewrite H. reflexivity.
Qed.

Lemma extractRelease_missing_tarball_witness :
  extractRelease (testEnv (fun _ => true) release_2_30_0) (conf (installCfg false "" ""))
    "/opt/dojo/dojo-v2.30.0.tar.gz" rootSt =
  (Err (PathError "open" "/opt/dojo/dojo-v2.30.0.tar.gz" ENOENT),
   mkSt (fs rootSt) (app (trace rootSt) [EvOpen "/opt/dojo/dojo-v2.30.0.tar.gz"])).
Proof. apply extractRelease_missing_tarball. vm_compute. reflexivity. Defined.

(** When [extractRelease] succeeds, [Root/Source] exists afterwards,
    provided the versioned directory is neither [/] nor inside the
    directory it is renamed to. *)
Theorem extractRelease_ok_source_present (env : Env) (c : Install) (t : string) (st : St) :
  key (FilePath.Join (Root c) ("django-DefectDojo-" ++ Version c)) <> "/" ->
  under (key (FilePath.Join (Root c) (Source c)))
        (key (FilePath.Join (Root c) ("django-DefectDojo-" ++ Version c))) = false ->
  fst (extractRelease env c t st) = Ok tt ->
  present (fs (snd (extractRelease env c t st))) (FilePath.Join (Root c) (Source c)).
Proof.
  intros Hr Hu. unfold extractRelease, bind, emit. cbv beta zeta.
  destruct (Open env t st) as [[tb|e| |k] st1]; cbv beta iota; cbn [fst];
    try (intros H; discriminate H).
  destruct (untar env (Root c) tb st1) as [[[]|e| |k] st2]; cbv beta iota; cbn [fst];
    try (intros H; discriminate H).
  apply Rename_ok_present; assumption.
Qed.

Lemma extractRelease_ok_source_present_witness :
  present (fs (snd (extractRelease (testEnv (fun _ => true) release_2_30_0)
                      (conf (installCfg false "" "")) "/opt/dojo/dojo-v2.30.0.tar.gz" tarballSt)))
          (FilePath.Join "/opt/dojo" "django-DefectDojo").
Proof.
  apply (extractRelease_ok_source_present (testEnv (fun _ => true) release_2_30_0)
           (conf (installCfg false "" "")) "/opt/dojo/dojo-v2.30.0.tar.gz" tarballSt);
    vm_compute; first [discriminate | reflexivity].
Defined.

(** ** downloadDojo *)



(** The network requests of [downloadDojo] follow [SourceInstall]: a
    source install only clones [cloneURL] into [Root/Source], a release
    install only fetches [releaseURL ++ Version ++ ".tar.gz"]. *)
Theorem downloadDojo_network (env : Env) (d : DDConfig) (st : St) :
  let srcPath := FilePath.Join (Root (conf d)) (Source (conf d)) in
  grows (fun e => is_network e = true ->
           if SourceInstall (conf d)
           then e = EvClone (cloneURL d) srcPath \/
                e = EvCloneBranch (cloneURL d) srcPath ("refs/heads/" ++ SourceBranch (conf d))
           else e = EvHttpGet (releaseURL d ++ Version (conf d) ++ ".tar.gz"))
        st (snd (downloadDojo env d st)).
Proof.
  intros srcPath. unfold downloadDojo.
  destruct (PullSource (conf d)); [|exact (grows_refl _ _)].
  destruct (SourceInstall (conf d)); apply (resp_exitOnError (grows _));
    [apply grows_getDojoSource | apply grows_getDojoRelease];
    simpl; intros; first [discriminate | reflexivity | auto].
Qed.

(** ** Existing source directory *)

Lemma fs_lookup_same_key (f : fsys) (p q : string) :
  key p = key q -> fs_lookup f p = fs_lookup f q.
Proof. intros E. unfold fs_lookup. rewrite E. reflexivity. Qed.

Lemma fs_lookup_set_dir (f : fsys) (p : string) :
  fs_lookup (fs_set f p NDir) p = Some NDir.
Proof.
  unfold fs_lookup, fs_set. destruct (String.eqb (key p) "/"); [reflexivity|].
  cbn [lookup]. rewrite String.eqb_refl. reflexivity.
Qed.

Lemma write_entry_keeps_dir (env : Env) (target : string) (nd : node) (st : St) (q : string) :
  fs_lookup (fs st) q = Some NDir ->
  fs_lookup (fs (snd (write_entry env target nd st))) q = Some NDir.
Proof.
  intros Hq. unfold write_entry, bind, get_fs, fail, put_fs. cbv beta iota.
  destruct (negb (write_ok env target)); [exact Hq|].
  destruct (String.eqb_spec (key q) (key target)) as [Ek|Nk].
  - rewrite (fs_lookup_same_key (fs st) target q (eq_sym Ek)), Hq.
    destruct nd; cbn [fs snd]; [exact Hq|].
    rewrite (fs_lookup_same_key _ q target Ek). apply fs_lookup_set_dir.
  - destruct nd, (fs_lookup (fs st) target) as [[?|]|]; cbn [fs snd];
      first [exact Hq | rewrite lookup_set_other by exact Nk; exact Hq].
Qed.

Lemma write_entries_keeps_dir (env : Env) (root : string) es : forall st q,
  fs_lookup (fs st) q = Some NDir ->
  fs_lookup (fs (snd (write_entries env root es st))) q = Some NDir.
Proof.
  induction es as [|[name nd] es IH]; intros st q Hq; [exact Hq|].
  simpl. unfold bind at 1.
  pose proof (write_entry_keeps_dir env (FilePath.Join root name) nd st q Hq) as H1.
  destruct (write_entry env (FilePath.Join root name) nd st) as [[[]|e| |k] st1];
    cbn [fst snd] in *; auto.
Qed.

Lemma Open_keeps_fs (env : Env) (t : string) (st : St) : fs (snd (Open env t st)) = fs st.
Proof.
  unfold Open, bind, emit, get_fs, fail, ret. cbv beta iota. cbn [fs trace].
  destruct (fs_lookup (fs st) t); [destruct (open_ok env t)|]; reflexivity.
Qed.

(** [extractRelease] never succeeds when [Root/Source] already is a
    directory distinct from the versioned one: the archive is unpacked,
    and then [os.Rename] refuses the existing directory. A second install
    into the same place fails this way. *)
Theorem extractRelease_existing_source_fails (env : Env) (c : Install) (t : string) (st : St) :
  key (FilePath.Join (Root c) ("django-DefectDojo-" ++ Version c)) <>
    key (FilePath.Join (Root c) (Source c)) ->
  fs_lookup (fs st) (FilePath.Join (Root c) (Source c)) = Some NDir ->
  fst (extractRelease env c t st) <> Ok tt.
Proof.
  intros Hne Hdir. unfold extractRelease, bind, emit. cbv beta zeta.
  pose proof (Open_keeps_fs env t st) as Ho.
  destruct (Open env t st) as [[tb|e| |k] st1]; cbv beta iota; try discriminate.
  cbn [fs snd] in Ho.
  assert (Hu : fs_lookup (fs (snd (untar env (Root c) tb st1)))
                         (FilePath.Join (Root c) (Source c)) = Some NDir).
  { unfold untar, bind, emit, fail. cbv beta iota. cbn [fs trace].
    destruct tb as [cnt|]; [|rewrite Ho; exact Hdir].
    destruct (tar_entries env cnt) as [es|]; [|rewrite Ho; exact Hdir].
    apply write_entries_keeps_dir. cbn [fs]. rewrite Ho. exact Hdir. }
  destruct (untar env (Root c) tb st1) as [[[]|e| |k] st2]; cbv beta iota; try discriminate.
  cbn [snd] in Hu.
  unfold Rename, bind, get_fs, fail, ret. cbv beta iota zeta. cbn [fs].
  rewrite Hu.
  apply String.eqb_neq in Hne. rewrite Hne, orb_true_r.
  destruct (fs_lookup (fs st2) (FilePath.Join (Root c) ("django-DefectDojo-" ++ Version c)));
    discriminate.
Qed.

Lemma extractRelease_existing_source_fails_witness :
  key (FilePath.Join "/opt/dojo" ("django-DefectDojo-" ++ "2.30.0")) <>
    key (FilePath.Join "/opt/dojo" "django-DefectDojo") /\
  fst (extractRelease (testEnv (fun _ => true) release_2_30_0) (conf (installCfg false "" ""))
         "/opt/dojo/dojo-v2.30.0.tar.gz"
         (mkSt (("/opt/dojo/django-DefectDojo", NDir) :: fs tarballSt) [])) <> Ok tt.
Proof.
  assert (Hne : key (FilePath.Join "/opt/dojo" ("django-DefectDojo-" ++ "2.30.0")) <>
                key (FilePath.Join "/opt/dojo" "django-DefectDojo")) by (vm_compute; discriminate).
  split; [exact Hne|].
  apply (extractRelease_existing_source_fails (testEnv (fun _ => true) release_2_30_0)
           (conf (installCfg false "" "")) "/opt/dojo/dojo-v2.30.0.tar.gz"
           (mkSt (("/opt/dojo/django-DefectDojo", NDir) :: fs tarballSt) []) Hne).
  vm_compute. reflexivity.
Defined.

(** A [Root] that cannot be created ends [getDojoRelease] at once with
    the [MkdirAll] error: no tarball is looked for and no request made. *)
Theorem getDojoRelease_mkdir_error_first (env : Env) (d : DDConfig) (st : St) (e : goerr) :
  fst (ensureDir env (Root (conf d)) st) = Err e ->
  getDojoRelease env d st = ensureDir env (Root (conf d)) st /\
  (exists a en, e = PathError "mkdir" a en) /\
  grows (fun ev => is_network ev = false) st (snd (getDojoRelease env d st)).
Proof.
  intros H.
  assert (E : getDojoRelease env d st = ensureDir env (Root (conf d)) st).
  { unfold getDojoRelease. cbv zeta. unfold bind at 1.
    destruct (ensureDir env (Root (conf d)) st) as [r st1]. cbn [fst] in H. subst r.
    reflexivity. }
  split; [exact E|]. split; [exact (ensureDir_err env _ st e H)|].
  rewrite E. apply grows_ensureDir. reflexivity.
Qed.

Lemma getDojoRelease_mkdir_error_first_witness :
  let env := testEnv (fun p => negb (String.eqb p "/opt/dojo")) release_2_30_0 in
  getDojoRelease env (installCfg false "" "") emptySt = ensureDir env "/opt/dojo" emptySt.
Proof.
  intros env.
  exact (proj1 (getDojoRelease_mkdir_error_first env (installCfg false "" "") emptySt
                  (PathError "mkdir" "/opt/dojo" EACCES) ltac:(vm_compute; reflexivity))).
Defined.

End AcquireExtras.
